(** * simplechat: the Inference Service and the Edge Relay

    A shallow embedding of the two request handlers of the repository:

    - [src/api/main.py]: the FastAPI endpoint [run_inference] (POST /infer),
      which forwards a conversation to the Bedrock runtime and shapes the
      answer into an [InferenceResponse];
    - [src/lambda/index.py]: the API Gateway handler [lambda_handler], which
      relays a request to the Inference Service and maps the outcome to a
      status code.

    Python values that cross a JSON boundary are modelled by [json]; Python
    exceptions by [exn], threaded through the [result] monad; the libraries
    the handlers call (boto3, requests, the json codec, pydantic's string
    validation, the builtin [str]) are Section variables.  The [print]
    calls of the source only log and are left out, except where evaluating
    their argument can raise. *)

From Stdlib Require Import ZArith Ascii String Floats.PrimFloat Lia.
From stdpp Require Import base option gmap strings list pretty.

Set Warnings "-register-all,-inexact-float".
Local Open Scope Z_scope.

(* ===================================================================== *)
(** * Python values and exceptions                                        *)
(* ===================================================================== *)

Module Py.

(** What [json.loads] produces, and what [json.dumps] accepts: [None],
    [bool], [int], [float], [str], [list] and [dict] with [str] keys. *)
Inductive json : Type :=
| JNull
| JBool (b : bool)
| JInt (n : Z)
| JFloat (f : PrimFloat.float)
| JStr (s : string)
| JList (l : list json)
| JDict (d : gmap string json).

(** [type(v).__name__], as it appears in the interpreter's messages. *)
Definition type_name (v : json) : string :=
  match v with
  | JNull => "NoneType"
  | JBool _ => "bool"
  | JInt _ => "int"
  | JFloat _ => "float"
  | JStr _ => "str"
  | JList _ => "list"
  | JDict _ => "dict"
  end.

(** [bool(v)]: the truth value tested by [if v], [not v] and [v or w]. *)
Definition truthy (v : json) : bool :=
  match v with
  | JNull => false
  | JBool b => b
  | JInt n => negb (Z.eqb n 0)
  | JFloat f => negb (PrimFloat.eqb f 0%float)
  | JStr s => negb (String.eqb s EmptyString)
  | JList l => match l with [] => false | _ :: _ => true end
  | JDict d => match map_to_list d with [] => false | _ :: _ => true end
  end.

Definition is_dict (v : json) : bool :=
  match v with JDict _ => true | _ => false end.

Definition is_list (v : json) : bool :=
  match v with JList _ => true | _ => false end.

Definition is_none (v : json) : bool :=
  match v with JNull => true | _ => false end.

(** The exception classes the two handlers can meet.  [ClientError] is
    botocore's, [RequestException] stands for requests' base class and all
    its subclasses, [Exception_] for any other subclass of [Exception];
    each carries what [str] prints for it. *)
Inductive exn : Type :=
| ClientError (msg : string)
| RequestException (msg : string)
| ValueError (msg : string)
| KeyError (key_repr : string)
| IndexError (msg : string)
| TypeError (msg : string)
| AttributeError (msg : string)
| Exception_ (msg : string).

(** [str(error)]. *)
Definition str_exn (e : exn) : string :=
  match e with
  | ClientError msg | RequestException msg | ValueError msg
  | KeyError msg | IndexError msg | TypeError msg
  | AttributeError msg | Exception_ msg => msg
  end.

(** The exceptions the interpreter and the json codec raise themselves:
    none of them is botocore's or requests'. *)
Definition builtin_exn (e : exn) : Prop :=
  match e with
  | ClientError _ | RequestException _ => False
  | _ => True
  end.

(** A computation that returns or raises. *)
Inductive result (A : Type) : Type :=
| Return (a : A)
| Raise (e : exn).
Arguments Return {A} a.
Arguments Raise {A} e.

Definition bind {A B : Type} (c : result A) (k : A -> result B) : result B :=
  match c with
  | Return a => k a
  | Raise e => Raise e
  end.

Notation "'let*' x ':=' c 'in' k" := (bind c (fun x => k))
  (at level 10, x name, c at level 100, k at level 200, only parsing).

(** [repr] of a dictionary key written as a literal in the source (no
    quote or escape inside), which is what [str(KeyError(key))] prints. *)
Definition key_repr (key : string) : string := "'" +:+ key +:+ "'".

(** [obj.get(key)]: [dict.get], an [AttributeError] on anything else. *)
Definition get (obj : json) (key : string) : result json :=
  match obj with
  | JDict d => Return (default JNull (d !! key))
  | _ => Raise (AttributeError
                  ("'" +:+ type_name obj +:+ "' object has no attribute 'get'"))
  end.

(** [obj.get(key, dflt)]. *)
Definition get_default (obj : json) (key : string) (dflt : json) : result json :=
  match obj with
  | JDict d => Return (default dflt (d !! key))
  | _ => Raise (AttributeError
                  ("'" +:+ type_name obj +:+ "' object has no attribute 'get'"))
  end.

(** [obj[key]] for a [str] key. *)
Definition getitem (obj : json) (key : string) : result json :=
  match obj with
  | JDict d =>
      match d !! key with
      | Some v => Return v
      | None => Raise (KeyError (key_repr key))
      end
  | JList _ => Raise (TypeError "list indices must be integers or slices, not str")
  | JStr _ => Raise (TypeError "string indices must be integers, not 'str'")
  | _ => Raise (TypeError ("'" +:+ type_name obj +:+ "' object is not subscriptable"))
  end.

(** [obj[0]]. *)
Definition getitem0 (obj : json) : result json :=
  match obj with
  | JList l =>
      match l with
      | v :: _ => Return v
      | [] => Raise (IndexError "list index out of range")
      end
  | JStr s =>
      match s with
      | String c _ => Return (JStr (String c EmptyString))
      | EmptyString => Raise (IndexError "string index out of range")
      end
  | JDict _ => Raise (KeyError "0")
  | _ => Raise (TypeError ("'" +:+ type_name obj +:+ "' object is not subscriptable"))
  end.

(** [key in obj] for a [str] key: key membership in a dict, element
    membership in a list, substring test in a str. *)
Definition contains (key : string) (obj : json) : result bool :=
  match obj with
  | JDict d => Return (bool_decide (is_Some (d !! key)))
  | JList l =>
      Return (existsb (fun v => match v with
                                | JStr s => String.eqb key s
                                | _ => false
                                end) l)
  | JStr s => Return (bool_decide (is_Some (String.index 0 key s)))
  | _ => Raise (TypeError ("argument of type '" +:+ type_name obj
                           +:+ "' is not iterable"))
  end.

(** [json.loads(v)] over a decoder [loads] of text: a [TypeError] unless
    [v] is text, a [JSONDecodeError] (a [ValueError]) when it does not
    decode. *)
Definition json_loads_value (loads : string -> string + json) (v : json)
  : result json :=
  match v with
  | JStr s =>
      match loads s with
      | inr body => Return body
      | inl msg => Raise (ValueError msg)
      end
  | _ => Raise (TypeError ("the JSON object must be str, bytes or bytearray, not "
                           +:+ type_name v))
  end.

End Py.

(* ===================================================================== *)
(** * The Inference Service: src/api/main.py                              *)
(* ===================================================================== *)

Module Api.
Import Py.

(** [class ChatMessage(BaseModel)]: [role] is any [str]. *)
Record ChatMessage : Type := mkChatMessage {
  role : string;
  content : string
}.

(** [class InferenceRequest(BaseModel)]. *)
Record InferenceRequest : Type := mkInferenceRequest {
  message : string;
  conversationHistory : list ChatMessage
}.

(** [class InferenceResponse(BaseModel)]; the three optional fields
    default to [None].  [updatedHistory] is its field [conversationHistory],
    a name the request has taken here. *)
Record InferenceResponse : Type := mkInferenceResponse {
  success : bool;
  response : option string;
  updatedHistory : option (list ChatMessage);
  error : option string
}.

(** One call of [invoke_model], with its keyword arguments. *)
Record invocation : Type := mkInvocation {
  modelId : string;
  body : string;
  contentType : string
}.

(** The boto3 [bedrock-runtime] client: [invoke_model] followed by
    [response['body'].read()] yields the raw response body or raises. *)
Record client : Type := mkClient {
  invoke_model : invocation -> result string
}.

(** What the module imports and reads from its process: [os.environ],
    [boto3.client(service_name, region_name=...)], [json.loads] on text
    ([inl] carries the message of its decode error), [json.dumps], and
    pydantic's validation of a value given for a [str] field (the string it
    stores, or a [ValidationError]). *)
Record Platform : Type := mkPlatform {
  environ : gmap string string;
  boto3_client : string -> string -> result client;
  json_loads : string -> string + json;
  json_dumps : json -> string;
  pydantic_str : json -> result string
}.

(** The pattern of line 23, ['arn:aws:lambda:([^:]+):'], in three steps.
    [strip_prefix p s] is [s] behind the literal text [p], when [s] starts
    with it. *)
Fixpoint strip_prefix (p s : string) : option string :=
  match p with
  | EmptyString => Some s
  | String a p' =>
      match s with
      | String b s' => if Ascii.eqb a b then strip_prefix p' s' else None
      | EmptyString => None
      end
  end.

(** The characters of [s] before its first colon, when it has a colon: a
    greedy [[^:]+] that must be followed by a colon can only stop there. *)
Fixpoint before_colon (s : string) : option string :=
  match s with
  | EmptyString => None
  | String c rest =>
      if Ascii.eqb c ":"%char then Some EmptyString
      else option_map (String c) (before_colon rest)
  end.

(** The pattern matched at the start of [s]: group 1, which [+] makes
    non-empty. *)
Definition match_arn_here (s : string) : option string :=
  match strip_prefix "arn:aws:lambda:" s with
  | Some rest =>
      match before_colon rest with
      | Some (String c group) => Some (String c group)
      | _ => None
      end
  | None => None
  end.

(** [re.search(pattern, arn)]: the match at the leftmost position that has
    one, as its group 1. *)
Fixpoint search_arn (arn : string) : option string :=
  match match_arn_here arn with
  | Some group1 => Some group1
  | None =>
      match arn with
      | EmptyString => None
      | String _ rest => search_arn rest
      end
  end.

(** Lines 13-27. *)
Definition extract_region_from_arn (P : Platform) (arn : string) : string :=
  match search_arn arn with
  | Some group1 => group1
  | None => default "us-east-1" (environ P !! "AWS_REGION")
  end.

Section InferenceService.

Variable P : Platform.

(** Lines 30-40: the module-level configuration and client handle. *)
Definition MODEL_ID : string :=
  default "us.amazon.nova-lite-v1:0" (environ P !! "MODEL_ID").

Definition region : string :=
  default "us-east-1" (environ P !! "AWS_REGION").

Definition bedrock_client : option client :=
  match boto3_client P "bedrock-runtime" region with
  | Return c => Some c
  | Raise _ => None
  end.

(** Lines 95-106: the loop that fills [bedrock_messages]. *)
Fixpoint bedrock_messages (messages : list ChatMessage) : list json :=
  match messages with
  | [] => []
  | msg :: rest =>
      if String.eqb (role msg) "user" then
        JDict {[ "role" := JStr "user";
                 "content" := JList [JDict {[ "text" := JStr (content msg) ]}] ]}
        :: bedrock_messages rest
      else if String.eqb (role msg) "assistant" then
        JDict {[ "role" := JStr "assistant";
                 "content" := JList [JDict {[ "text" := JStr (content msg) ]}] ]}
        :: bedrock_messages rest
      else bedrock_messages rest
  end.

(** Lines 109-117. *)
Definition request_payload (translated : list json) : json :=
  JDict {[ "messages" := JList translated;
           "inferenceConfig" :=
             JDict {[ "maxTokens" := JInt 512;
                      "stopSequences" := JList [];
                      "temperature" := JFloat 0.7%float;
                      "topP" := JFloat 0.9%float ]} ]}.

(** Lines 134-140: the condition of the [if], evaluated left to right with
    the short circuit of [or].  Each [response_body[...]] path the source
    reads again is bound once here. *)
Definition invalid_structure (response_body : json) : result bool :=
  let* output := get response_body "output" in
  if negb (truthy output) || negb (is_dict output) then Return true else
  let* message := get output "message" in
  if negb (truthy message) || negb (is_dict message) then Return true else
  let* content := get message "content" in
  if negb (truthy content) || negb (is_list content) then Return true else
  match content with
  | JList [] => Return true
  | _ =>
      let* first := getitem0 content in
      let* text := get first "text" in
      Return (negb (truthy text))
  end.

(** Lines 80-83, 159 and 163: an error response. *)
Definition error_response (msg : string) : InferenceResponse :=
  mkInferenceResponse false None None (Some msg).

(** Lines 90-92: the copy of the history with the new user turn. *)
Definition messages (request : InferenceRequest) : list ChatMessage :=
  conversationHistory request ++ [mkChatMessage "user" (message request)].

(** Lines 122-126: the arguments of the call to [invoke_model]. *)
Definition invoke_model_call (request : InferenceRequest) : invocation :=
  mkInvocation MODEL_ID
    (json_dumps P (request_payload (bedrock_messages (messages request))))
    "application/json".

(** Lines 86-154: the body of the [try], paired with the calls it made to
    the backend.  [assistant_response] is validated where it is stored in a
    [str] field: as [content] of the new [ChatMessage] and as [response].
    The dicts made by [msg.dict()] hold the [str] fields of a [ChatMessage]
    and are read back as that [ChatMessage]. *)
Definition try_inference (c : client) (request : InferenceRequest)
  : result InferenceResponse * list invocation :=
  let call := invoke_model_call request in
  (let* raw := invoke_model c call in
   let* response_body := json_loads_value (json_loads P) (JStr raw) in
   let* invalid := invalid_structure response_body in
   if invalid then Raise (Exception_ "No valid response content from the model")
   else
     let* output := getitem response_body "output" in
     let* message := getitem output "message" in
     let* content := getitem message "content" in
     let* first := getitem0 content in
     let* assistant_response := getitem first "text" in
     let* assistant_content := pydantic_str P assistant_response in
     let updated_history :=
       messages request ++ [mkChatMessage "assistant" assistant_content] in
     let* response_text := pydantic_str P assistant_response in
     Return (mkInferenceResponse true (Some response_text)
                                 (Some updated_history) None),
   [call]).

(** [run_inference]: the response, and the backend calls made. *)
Definition run_inference (request : InferenceRequest)
  : InferenceResponse * list invocation :=
  match bedrock_client with
  | None => (error_response "Bedrock client not available.", [])
  | Some c =>
      match try_inference c request with
      | (Return r, calls) => (r, calls)
      | (Raise (ClientError msg), calls) =>
          (error_response ("Bedrock API error: " +:+ msg), calls)
      | (Raise e, calls) => (error_response (str_exn e), calls)
      end
  end.

End InferenceService.

(** The path [output.message.content[0].text] of a response body, when
    every step of it is there: an [output] object, a [message] object in
    it, a non-empty [content] sequence in that, and a [text] field in its
    first element. *)
Definition text_field (response_body : json) : option json :=
  match response_body with
  | JDict b =>
      match b !! "output" with
      | Some (JDict o) =>
          match o !! "message" with
          | Some (JDict m) =>
              match m !! "content" with
              | Some (JList (JDict first :: _)) => first !! "text"
              | _ => None
              end
          | _ => None
          end
      | _ => None
      end
  | _ => None
  end.

(** The roles the translation loop knows. *)
Definition recognised (msg : ChatMessage) : bool :=
  String.eqb (role msg) "user" || String.eqb (role msg) "assistant".

(** A turn in the backend's shape: the role tag, and a list of one text
    block. *)
Definition backend_turn (msg : ChatMessage) : json :=
  JDict {[ "role" := JStr (role msg);
           "content" := JList [JDict {[ "text" := JStr (content msg) ]}] ]}.

(** A text without a colon. *)
Fixpoint colon_free (s : string) : bool :=
  match s with
  | EmptyString => true
  | String c rest => negb (Ascii.eqb c ":"%char) && colon_free rest
  end.





End Api.

(* ===================================================================== *)
(** * The Edge Relay: src/lambda/index.py                                 *)
(* ===================================================================== *)

Module Relay.
Import Py.

(** What [requests.post] returns: the fields [raise_for_status] reads, and
    the outcome of [response.json()]. *)
Record Response : Type := mkResponse {
  status_code : Z;
  reason : string;
  url : string;
  json_ : result json
}.

(** What the handler returns to API Gateway. *)
Record LambdaResponse : Type := mkLambdaResponse {
  statusCode : Z;
  headers : gmap string string;
  body : string
}.

(** What the module imports and reads from its process: [os.environ],
    [requests.post(url, json=payload)], [json.loads] on text ([inl] carries
    the message of its decode error), [json.dumps], and the builtin [str]
    on a decoded value. *)
Record Platform : Type := mkPlatform {
  environ : gmap string string;
  requests_post : string -> json -> result Response;
  json_loads : string -> string + json;
  json_dumps : json -> string;
  py_str : json -> string
}.

(** The message of the [HTTPError] that requests raises for a status. *)
Definition http_error_msg (side : string) (r : Response) : string :=
  pretty (status_code r) +:+ " " +:+ side +:+ " Error: " +:+ reason r
  +:+ " for url: " +:+ url r.

(** [Response.raise_for_status] of requests: an [HTTPError] for a 4xx or a
    5xx status. *)
Definition raise_for_status (r : Response) : result unit :=
  if (400 <=? status_code r) && (status_code r <? 500) then
    Raise (RequestException (http_error_msg "Client" r))
  else if (500 <=? status_code r) && (status_code r <? 600) then
    Raise (RequestException (http_error_msg "Server" r))
  else Return tt.

Section EdgeRelay.

Variable P : Platform.

(** Line 9. *)
Definition INFERENCE_API_ENDPOINT : option string :=
  environ P !! "INFERENCE_API_ENDPOINT".

(** Lines 32-35: the claims are read for the log line only. *)
Definition log_authenticated_user (event : json) : result unit :=
  let* has_context := contains "requestContext" event in
  let* has_authorizer :=
    if has_context then
      let* request_context := getitem event "requestContext" in
      contains "authorizer" request_context
    else Return false in
  if has_authorizer then
    let* request_context := getitem event "requestContext" in
    let* authorizer := getitem request_context "authorizer" in
    let* user_info := getitem authorizer "claims" in
    let* email := get user_info "email" in
    if truthy email then Return tt
    else
      let* username := get user_info "cognito:username" in
      Return tt
  else Return tt.

(** Lines 38-48: the payload for the Inference Service. *)
Definition build_api_payload (event : json) : result json :=
  let* raw := getitem event "body" in
  let* body := json_loads_value (json_loads P) raw in
  let* message := getitem body "message" in
  let* conversation_history := get_default body "conversationHistory" (JList []) in
  Return (JDict {[ "message" := message;
                   "conversationHistory" := conversation_history ]}).

(** Lines 53-57. *)
Definition call_inference_api (endpoint : string) (api_payload : json)
  : result json :=
  let* response := requests_post P endpoint api_payload in
  let* checked := raise_for_status response in
  json_ response.

(** Lines 60-69: the assistant's answer and the updated history. *)
Definition read_api_response (api_response : json) : result (json * json) :=
  let* success := get api_response "success" in
  if negb (truthy success) then
    let* error_message :=
      get_default api_response "error" (JStr "Inference API returned an error.") in
    Raise (Exception_ (py_str P error_message))
  else
    let* assistant_response := get api_response "response" in
    let* updated_history := get api_response "conversationHistory" in
    if is_none assistant_response || is_none updated_history then
      Raise (Exception_ "Invalid response structure from Inference API.")
    else Return (assistant_response, updated_history).

(** Lines 26-69: the body of the [try], up to the [return]. *)
Definition try_relay (event : json) : result (json * json) :=
  match INFERENCE_API_ENDPOINT with
  | Some endpoint =>
      if negb (String.eqb endpoint EmptyString) then
        let* logged := log_authenticated_user event in
        let* api_payload := build_api_payload event in
        let* api_response := call_inference_api endpoint api_payload in
        read_api_response api_response
      else
        Raise (ValueError "INFERENCE_API_ENDPOINT environment variable is not set.")
  | None =>
      Raise (ValueError "INFERENCE_API_ENDPOINT environment variable is not set.")
  end.

(** [lambda_handler]: the [return] of the [try] and the two [except]
    clauses, in the order the source lists them. *)
Definition lambda_handler (event : json) : LambdaResponse :=
  match try_relay event with
  | Return (assistant_response, updated_history) =>
      mkLambdaResponse 200
        {[ "Content-Type" := "application/json";
           "Access-Control-Allow-Origin" := "*";
           "Access-Control-Allow-Headers" :=
             "Content-Type,X-Amz-Date,Authorization,X-Api-Key,X-Amz-Security-Token";
           "Access-Control-Allow-Methods" := "OPTIONS,POST" ]}
        (json_dumps P (JDict {[ "success" := JBool true;
                                "response" := assistant_response;
                                "conversationHistory" := updated_history ]}))
  | Raise (RequestException http_error) =>
      mkLambdaResponse 502
        {[ "Content-Type" := "application/json";
           "Access-Control-Allow-Origin" := "*";
           "Access-Control-Allow-Headers" :=
             "Content-Type,X-Amz-Date,Authorization,X-Api-Key,X-Amz-Security-Token";
           "Access-Control-Allow-Methods" := "OPTIONS,POST" ]}
        (json_dumps P (JDict {[ "success" := JBool false;
                                "error" := JStr ("Failed to connect to inference service: "
                                                 +:+ http_error) ]}))
  | Raise error =>
      mkLambdaResponse 500
        {[ "Content-Type" := "application/json";
           "Access-Control-Allow-Origin" := "*";
           "Access-Control-Allow-Headers" :=
             "Content-Type,X-Amz-Date,Authorization,X-Api-Key,X-Amz-Security-Token";
           "Access-Control-Allow-Methods" := "OPTIONS,POST" ]}
        (json_dumps P (JDict {[ "success" := JBool false;
                                "error" := JStr (str_exn error) ]}))
  end.

End EdgeRelay.

(** The three dictionaries the handler returns. *)
Definition cors_headers : gmap string string :=
  {[ "Content-Type" := "application/json";
     "Access-Control-Allow-Origin" := "*";
     "Access-Control-Allow-Headers" :=
       "Content-Type,X-Amz-Date,Authorization,X-Api-Key,X-Amz-Security-Token";
     "Access-Control-Allow-Methods" := "OPTIONS,POST" ]}.

(** The error response [{success: false, error: msg}] under a status. *)
Definition failure_response (P : Platform) (status : Z) (msg : string)
  : LambdaResponse :=
  mkLambdaResponse status cors_headers
    (json_dumps P (JDict {[ "success" := JBool false; "error" := JStr msg ]})).

(** The endpoint is configured: set, and not empty. *)
Definition configured (P : Platform) (endpoint : string) : Prop :=
  INFERENCE_API_ENDPOINT P = Some endpoint /\ endpoint <> EmptyString.


(** The Inference Service answered the POST of the event's payload with
    the JSON object [api]. *)
Definition answered (P : Platform) (event : json) (api : gmap string json)
  : Prop :=
  exists endpoint api_payload r,
    configured P endpoint
    /\ log_authenticated_user event = Return tt
    /\ build_api_payload P event = Return api_payload
    /\ requests_post P endpoint api_payload = Return r
    /\ raise_for_status r = Return tt
    /\ json_ r = Return (JDict api).



(** The platform with another [requests.post]. *)
Definition with_post (P : Platform)
           (post : string -> json -> result Response) : Platform :=
  mkPlatform (environ P) post (json_loads P) (json_dumps P) (py_str P).

End Relay.

(* ===================================================================== *)
(** * Test doubles for the platform                                       *)
(* ===================================================================== *)

Module Stubs.
Import Py.

(** A decoder that knows the texts of a table. *)
Definition decode (table : list (string * json)) (raw : string) : string + json :=
  match List.find (fun entry => String.eqb raw (fst entry)) table with
  | Some entry => inr (snd entry)
  | None => inl "Expecting value: line 1 column 1 (char 0)"
  end.

(** pydantic accepting a [str] only. *)
Definition strict_str (v : json) : result string :=
  match v with
  | JStr s => Return s
  | _ => Raise (Exception_ "Input should be a valid string")
  end.

(** [str] on the scalars. *)
Definition scalar_str (v : json) : string :=
  match v with
  | JStr s => s
  | JNull => "None"
  | JBool true => "True"
  | JBool false => "False"
  | JInt n => pretty n
  | _ => "<" +:+ type_name v +:+ ">"
  end.

(** An encoder that tells the kinds of values apart and no more. *)
Definition kind_dumps (v : json) : string := type_name v.

(** A backend that answers every call the same way: [answer] is what
    [invoke_model] raises or the raw body it returns. *)
Definition backend (answer : result string) (table : list (string * json))
  : Api.Platform :=
  Api.mkPlatform ∅
    (fun _ _ => Return (Api.mkClient (fun _ => answer)))
    (decode table) kind_dumps strict_str.

(** A process in which the client could not be made. *)
Definition no_backend : Api.Platform :=
  Api.mkPlatform ∅
    (fun _ _ => Raise (Exception_ "You must specify a region."))
    (decode []) kind_dumps strict_str.

(** A body of the expected shape around [text], and its raw text. *)
Definition body_with (first : json) : json :=
  JDict {[ "output" := JDict {[ "message" := JDict {[ "content" := JList [first] ]} ]} ]}.

Definition completion (text : json) : json :=
  body_with (JDict {[ "text" := text ]}).

(** An Inference Service behind [endpoint] that answers every POST the same
    way. *)
Definition service (endpoint : option string) (answer : result Relay.Response)
           (table : list (string * json)) : Relay.Platform :=
  Relay.mkPlatform
    (match endpoint with
     | Some u => {[ "INFERENCE_API_ENDPOINT" := u ]}
     | None => ∅
     end)
    (fun _ _ => answer) (decode table) kind_dumps scalar_str.

(** An API Gateway event with the body [raw]. *)
Definition post_event (raw : string) : json :=
  JDict {[ "body" := JStr raw ]}.

End Stubs.

(* ===================================================================== *)
(** * The Inference Service as the Edge Relay reads it                    *)
(* ===================================================================== *)

Module Wire.
Import Py.



End Wire.

(* ===================================================================== *)
(** * Properties of the Python values                                     *)
(* ===================================================================== *)

Module PyFacts.
Import Py.


Lemma append_quote_nonempty (s : string) : "'" +:+ s <> EmptyString.
Proof. discriminate. Qed.

Lemma get_dict (d : gmap string json) (key : string) :
  get (JDict d) key = Return (default JNull (d !! key)).
Proof. reflexivity. Qed.


Lemma getitem_raises (obj : json) (key : string) (e : exn) :
  getitem obj key = Raise e -> str_exn e <> EmptyString.
Proof.
  destruct obj; simpl; try (intros [= <-]; discriminate).
  destruct (d !! key); intros [= <-]. apply append_quote_nonempty.
Qed.


Lemma get_builtin (obj : json) (key : string) (e : exn) :
  get obj key = Raise e -> builtin_exn e.
Proof. destruct obj; simpl; intros [= <-]; exact I. Qed.

Lemma get_default_builtin (obj : json) (key : string) (dflt : json) (e : exn) :
  get_default obj key dflt = Raise e -> builtin_exn e.
Proof. destruct obj; simpl; intros [= <-]; exact I. Qed.

Lemma getitem_builtin (obj : json) (key : string) (e : exn) :
  getitem obj key = Raise e -> builtin_exn e.
Proof.
  destruct obj; simpl; try (intros [= <-]; exact I).
  destruct (d !! key); intros [= <-]. exact I.
Qed.

Lemma contains_builtin (key : string) (obj : json) (e : exn) :
  contains key obj = Raise e -> builtin_exn e.
Proof. destruct obj; simpl; intros [= <-]; exact I. Qed.

Lemma json_loads_value_builtin (loads : string -> string + json) (v : json)
      (e : exn) :
  json_loads_value loads v = Raise e -> builtin_exn e.
Proof.
  destruct v; simpl; try (intros [= <-]; exact I).
  destruct (loads s); intros [= <-]. exact I.
Qed.


Create HintDb py_raise.
#[export] Hint Resolve get_builtin get_default_builtin getitem_builtin
  contains_builtin json_loads_value_builtin : py_raise.

(** A default of [None] that comes out as a dict, a list or a truthy value
    was a value of the dict. *)
Lemma default_null_dict (o : option json) (d : gmap string json) :
  default JNull o = JDict d -> o = Some (JDict d).
Proof. destruct o; simpl; congruence. Qed.

Lemma default_null_list (o : option json) (l : list json) :
  default JNull o = JList l -> o = Some (JList l).
Proof. destruct o; simpl; congruence. Qed.

Lemma default_null_truthy (o : option json) :
  truthy (default JNull o) = true -> o = Some (default JNull o).
Proof. destruct o; simpl; [reflexivity | discriminate]. Qed.

End PyFacts.

(* ===================================================================== *)
(** * The Inference Service: properties                                   *)
(* ===================================================================== *)

Module ApiFacts.
Import Py PyFacts Api.

(** Splits the first [bind] of hypothesis [H] on what its computation
    does. *)
Ltac step_in H :=
  match type of H with
  | context [bind ?c _] =>
      let Hc := fresh "Hstep" in
      destruct c eqn:Hc; simpl in H; try discriminate H
  end.

Section Validation.

(** The check accepts a body only when the whole path to a truthy [text]
    is there. *)
Lemma invalid_structure_false (response_body : json) :
  invalid_structure response_body = Return false ->
  exists b o m first rest v,
    response_body = JDict b
    /\ b !! "output" = Some (JDict o)
    /\ o !! "message" = Some (JDict m)
    /\ m !! "content" = Some (JList (JDict first :: rest))
    /\ first !! "text" = Some v
    /\ truthy v = true.
Proof.
  unfold invalid_structure. intros H.
  destruct response_body as [| | | | | |b]; try discriminate H.
  rewrite get_dict in H. simpl in H.
  destruct (_ || _) eqn:Ho in H; [discriminate H|].
  apply orb_false_elim in Ho as [To Ho]. apply negb_false_iff in To, Ho.
  destruct (default JNull (b !! "output")) as [| | | | | |o] eqn:Eo;
    try discriminate Ho.
  rewrite get_dict in H. simpl in H.
  destruct (_ || _) eqn:Hm in H; [discriminate H|].
  apply orb_false_elim in Hm as [Tm Hm]. apply negb_false_iff in Tm, Hm.
  destruct (default JNull (o !! "message")) as [| | | | | |m] eqn:Em;
    try discriminate Hm.
  rewrite get_dict in H. simpl in H.
  destruct (_ || _) eqn:Hc in H; [discriminate H|].
  apply orb_false_elim in Hc as [Tc Hc]. apply negb_false_iff in Tc, Hc.
  destruct (default JNull (m !! "content")) as [| | | | |l|] eqn:Ec;
    try discriminate Hc.
  destruct l as [|first rest]; [discriminate H|].
  simpl in H.
  destruct first as [| | | | | |f]; try discriminate H.
  simpl in H. injection H as Ht. apply negb_false_iff in Ht.
  exists b, o, m, f, rest, (default JNull (f !! "text")).
  repeat split; auto using default_null_dict, default_null_list,
    default_null_truthy.
Qed.


(** On a body that is an object and whose first content element, if the
    path leads to one, is an object too, the check finds every missing
    step of the path. *)
Lemma invalid_structure_typed (b : gmap string json) :
  text_field (JDict b) = None ->
  (forall o m first rest,
      b !! "output" = Some (JDict o) ->
      o !! "message" = Some (JDict m) ->
      m !! "content" = Some (JList (first :: rest)) ->
      is_dict first = true) ->
  invalid_structure (JDict b) = Return true.
Proof.
  unfold text_field, invalid_structure. intros Hnone Hfirst.
  rewrite get_dict. cbn [bind].
  destruct (b !! "output") as [[| | | | | |o]|] eqn:Ho; cbn [from_option id];
    try (cbn [is_dict negb]; rewrite orb_true_r; reflexivity).
  destruct (truthy (JDict o)); [|reflexivity]. cbn [negb orb is_dict].
  rewrite get_dict. cbn [bind].
  destruct (o !! "message") as [[| | | | | |m]|] eqn:Hm; cbn [from_option id];
    try (cbn [is_dict negb]; rewrite orb_true_r; reflexivity).
  destruct (truthy (JDict m)); [|reflexivity]. cbn [negb orb is_dict].
  rewrite get_dict. cbn [bind].
  destruct (m !! "content") as [[| | | | |[|first rest]|]|] eqn:Hc;
    cbn [from_option id];
    try (cbn [is_list negb]; rewrite orb_true_r; reflexivity);
    try reflexivity.
  cbn [truthy negb orb is_list getitem0 bind].
  pose proof (Hfirst o m first rest eq_refl Hm Hc) as If.
  destruct first as [| | | | | |f]; try discriminate If.
  rewrite get_dict. cbn [bind]. now rewrite Hnone.
Qed.


(** The translation loop maps the recognised turns, in order. *)
Lemma bedrock_messages_filter (messages : list ChatMessage) :
  bedrock_messages messages
  = backend_turn <$> filter (fun m => recognised m = true) messages.
Proof.
  induction messages as [|msg rest IH]; [reflexivity|].
  cbn [bedrock_messages].
  destruct (decide (recognised msg = true)) as [Hr|Hr].
  - rewrite filter_cons_True by exact Hr. rewrite fmap_cons, <- IH.
    unfold recognised in Hr. unfold backend_turn.
    destruct (String.eqb (role msg) "user") eqn:Hu.
    + apply String.eqb_eq in Hu. now rewrite Hu.
    + cbn [orb] in Hr. rewrite Hr.
      apply String.eqb_eq in Hr. now rewrite Hr.
  - rewrite filter_cons_False by exact Hr. rewrite <- IH.
    unfold recognised in Hr.
    destruct (String.eqb (role msg) "user"); [now destruct Hr|].
    destruct (String.eqb (role msg) "assistant"); [now destruct Hr|].
    reflexivity.
Qed.

Lemma bedrock_messages_app (l1 l2 : list ChatMessage) :
  bedrock_messages (l1 ++ l2) = bedrock_messages l1 ++ bedrock_messages l2.
Proof.
  rewrite !bedrock_messages_filter, filter_app. apply fmap_app.
Qed.

Lemma recognised_false (msg : ChatMessage) :
  role msg <> "user" -> role msg <> "assistant" -> recognised msg = false.
Proof.
  intros Hu Ha. unfold recognised.
  apply String.eqb_neq in Hu, Ha. now rewrite Hu, Ha.
Qed.

(** Taking a turn of another role out of the history changes nothing in
    the translation. *)
Lemma bedrock_messages_delete (messages : list ChatMessage) (i : nat)
      (msg : ChatMessage) :
  messages !! i = Some msg ->
  recognised msg = false ->
  bedrock_messages (delete i messages) = bedrock_messages messages.
Proof.
  revert i. induction messages as [|m rest IH]; intros [|i] Hi Hrole;
    try discriminate Hi.
  - injection Hi as ->. change (delete 0%nat (msg :: rest)) with rest.
    cbn [bedrock_messages].
    unfold recognised in Hrole. apply orb_false_elim in Hrole as [-> ->].
    reflexivity.
  - change (delete (S i) (m :: rest)) with (m :: delete i rest).
    cbn [bedrock_messages]. now rewrite (IH i Hi Hrole).
Qed.

Lemma backend_turn_role (m1 m2 : ChatMessage) :
  backend_turn m1 = backend_turn m2 -> role m1 = role m2.
Proof.
  intros H.
  apply (f_equal (fun turn => match turn with
                              | JDict d => d !! "role"
                              | _ => None
                              end)) in H.
  unfold backend_turn in H. cbv beta iota in H.
  rewrite !lookup_insert_eq in H. congruence.
Qed.

End Validation.

Section Handler.

Variable P : Platform.


(** The [try] calls the backend once, whatever comes of it. *)
Lemma try_inference_calls (c : client) (request : InferenceRequest) :
  snd (try_inference P c request) = [invoke_model_call P request].
Proof. reflexivity. Qed.

(** What a [return] from the [try] tells. *)
Lemma try_inference_return (c : client) (request : InferenceRequest)
      (r : InferenceResponse) :
  fst (try_inference P c request) = Return r ->
  exists raw response_body v t,
    invoke_model c (invoke_model_call P request) = Return raw
    /\ json_loads P raw = inr response_body
    /\ text_field response_body = Some v
    /\ truthy v = true
    /\ pydantic_str P v = Return t
    /\ r = mkInferenceResponse true (Some t)
             (Some (messages request ++ [mkChatMessage "assistant" t]))
             None.
Proof.
  unfold try_inference. cbn [fst]. intros H.
  step_in H. rename a into raw.
  unfold json_loads_value in H.
  destruct (json_loads P raw) as [msg|response_body] eqn:Hbody;
    [discriminate H|]. cbn [bind] in H.
  step_in H. destruct a; [discriminate H|].
  destruct (invalid_structure_false _ Hstep0)
    as (b & o & m & first & rest & v & -> & Ho & Hm & Hc & Ht & Tv).
  cbn [getitem getitem0 bind] in H.
  rewrite Ho in H. cbn [bind getitem] in H.
  rewrite Hm in H. cbn [bind getitem] in H.
  rewrite Hc in H. cbn [bind getitem getitem0] in H.
  rewrite Ht in H. cbn [bind] in H.
  destruct (pydantic_str P v) as [t|e] eqn:Hv; [|discriminate H].
  cbn [bind] in H. injection H as <-.
  exists raw, (JDict b), v, t. repeat split; auto.
  unfold text_field. now rewrite Ho, Hm, Hc.
Qed.


(** C1: when [run_inference] reports success, the history it returns is
    the request's history followed by the user turn and the assistant
    turn, in that order; the assistant turn holds the generated text (the
    [text] field of the backend's body, as pydantic stores it), which is
    also the [response] field; the request's history is a prefix of the
    result, which is longer by exactly two. *)
Theorem run_inference_round_trip (request : InferenceRequest)
        (r : InferenceResponse) (calls : list invocation) :
  (forall s, pydantic_str P (JStr s) = Return s) ->
  run_inference P request = (r, calls) ->
  success r = true ->
  exists (t : string) (h : list ChatMessage),
    response r = Some t
    /\ updatedHistory r = Some h
    /\ h = conversationHistory request
            ++ [mkChatMessage "user" (message request);
                mkChatMessage "assistant" t]
    /\ length h = (length (conversationHistory request) + 2)%nat
    /\ take (length (conversationHistory request)) h
       = conversationHistory request
    /\ exists c raw response_body v,
         bedrock_client P = Some c
         /\ invoke_model c (invoke_model_call P request) = Return raw
         /\ json_loads P raw = inr response_body
         /\ text_field response_body = Some v
         /\ pydantic_str P v = Return t
         /\ (forall s, v = JStr s -> t = s).
Proof.
  intros Hstr Hrun Hok. unfold run_inference in Hrun.
  destruct (bedrock_client P) as [c|] eqn:Hc.
  2:{ injection Hrun as <- <-. discriminate Hok. }
  destruct (try_inference P c request) as [[r0|e] calls0] eqn:Htry.
  2:{ destruct e; injection Hrun as <- <-; discriminate Hok. }
  injection Hrun as -> ->.
  destruct (try_inference_return c request r (f_equal fst Htry))
    as (raw & response_body & v & t & Hraw & Hbody & Htext & _ & Hv & ->).
  exists t, (messages request ++ [mkChatMessage "assistant" t]).
  unfold messages. cbn [response updatedHistory].
  rewrite <- !app_assoc. cbn [app].
  split; [reflexivity|]. split; [reflexivity|]. split; [reflexivity|].
  split. { rewrite length_app. reflexivity. }
  split. { now rewrite take_app_length. }
  exists c, raw, response_body, v. repeat split; auto.
  intros s ->. rewrite Hstr in Hv. congruence.
Qed.


(** C3: a message of the history whose role is neither user nor assistant
    is left out of the payload sent to the backend, which holds the user
    and assistant turns only, each as its role tag and a list of one text
    block; on success it is still in the returned history, where it
    was. *)
Theorem unrecognised_role_dropped_from_payload (request : InferenceRequest)
        (i : nat) (msg : ChatMessage)
        (r : InferenceResponse) (calls : list invocation) :
  conversationHistory request !! i = Some msg ->
  role msg <> "user" ->
  role msg <> "assistant" ->
  run_inference P request = (r, calls) ->
  bedrock_messages (messages request)
  = backend_turn <$> filter (fun m => recognised m = true) (messages request)
  /\ bedrock_messages (messages request)
     = bedrock_messages
         (delete i (conversationHistory request)
          ++ [mkChatMessage "user" (message request)])
  /\ ~ (backend_turn msg ∈ bedrock_messages (messages request))
  /\ (forall call, call ∈ calls ->
        body call
        = json_dumps P (request_payload
                          (bedrock_messages (messages request))))
  /\ (success r = true ->
      exists h, updatedHistory r = Some h /\ h !! i = Some msg).
Proof.
  intros Hi Hu Ha Hrun.
  pose proof (recognised_false msg Hu Ha) as Hrole.
  split; [apply bedrock_messages_filter|].
  split.
  { unfold messages. rewrite !bedrock_messages_app.
    now rewrite (bedrock_messages_delete _ i msg Hi Hrole). }
  split.
  { rewrite bedrock_messages_filter. intros Hin.
    apply list_elem_of_fmap in Hin as (m & Heq & Hm).
    apply list_elem_of_filter in Hm as [Hm _].
    apply backend_turn_role in Heq. unfold recognised in Hrole, Hm.
    rewrite Heq in Hrole. congruence. }
  unfold run_inference in Hrun.
  destruct (bedrock_client P) as [c|] eqn:Hc.
  2:{ injection Hrun as <- <-. split; [|discriminate].
      intros call Hcall. inversion Hcall. }
  destruct (try_inference P c request) as [[r0|e] calls0] eqn:Htry.
  - injection Hrun as -> ->.
    pose proof (try_inference_calls c request) as Hcalls.
    rewrite Htry in Hcalls. cbn [snd] in Hcalls. subst calls.
    split.
    { intros call Hcall. apply list_elem_of_singleton in Hcall as ->.
      reflexivity. }
    intros _.
    destruct (try_inference_return c request r (f_equal fst Htry))
      as (raw & response_body & v & t & _ & _ & _ & _ & _ & ->).
    eexists. split; [reflexivity|].
    unfold messages. rewrite <- app_assoc.
    now apply lookup_app_l_Some.
  - pose proof (try_inference_calls c request) as Hcalls.
    rewrite Htry in Hcalls. cbn [snd] in Hcalls.
    assert (Hr : success r = false /\ calls = calls0)
      by (destruct e; injection Hrun as <- <-; split; reflexivity).
    destruct Hr as [Hr ->]. subst calls0.
    split; [|rewrite Hr; discriminate].
    intros call Hcall. apply list_elem_of_singleton in Hcall as ->.
    reflexivity.
Qed.


(** A body that is an object, and whose first content element is one where
    the path leads to it, is reported by the generic message when a step of
    the path is missing. *)
Lemma typed_structural_failure_is_generic (request : InferenceRequest)
      (c : client) (raw : string) (b : gmap string json) :
  bedrock_client P = Some c ->
  invoke_model c (invoke_model_call P request) = Return raw ->
  json_loads P raw = inr (JDict b) ->
  text_field (JDict b) = None ->
  (forall o m first rest,
      b !! "output" = Some (JDict o) ->
      o !! "message" = Some (JDict m) ->
      m !! "content" = Some (JList (first :: rest)) ->
      is_dict first = true) ->
  run_inference P request
  = (error_response "No valid response content from the model",
     [invoke_model_call P request]).
Proof.
  intros Hc Hraw Hbody Htext Hfirst.
  unfold run_inference, try_inference. rewrite Hc, Hraw. cbn [bind].
  unfold json_loads_value. rewrite Hbody. cbn [bind].
  now rewrite (invalid_structure_typed b Htext Hfirst).
Qed.

(** C4: when the client could not be made at start-up, every call
    returns the error response of the unavailable backend, and no call to
    the backend is made. *)
Theorem unavailable_backend_degrades (request : InferenceRequest) (e : exn) :
  boto3_client P "bedrock-runtime" (region P) = Raise e ->
  bedrock_client P = None
  /\ run_inference P request
     = (mkInferenceResponse false None None
          (Some "Bedrock client not available."), []).
Proof.
  intros Hinit. unfold run_inference, bedrock_client. rewrite Hinit.
  split; reflexivity.
Qed.


End Handler.

(** The example of the specification: "Hi" on an empty history, answered
    "Hello!". *)
Lemma run_inference_round_trip_witness :
  let P := Stubs.backend (Return "raw")
             [("raw", Stubs.completion (JStr "Hello!"))] in
  let request := mkInferenceRequest "Hi" [] in
  run_inference P request
  = (mkInferenceResponse true (Some "Hello!")
       (Some [mkChatMessage "user" "Hi"; mkChatMessage "assistant" "Hello!"])
       None,
     [invoke_model_call P request])
  /\ exists (t : string) (h : list ChatMessage),
      Some "Hello!" = Some t
      /\ Some [mkChatMessage "user" "Hi"; mkChatMessage "assistant" "Hello!"]
         = Some h
      /\ h = [mkChatMessage "user" "Hi"; mkChatMessage "assistant" t]
      /\ length h = 2%nat
      /\ take 0 h = []
      /\ exists c raw response_body v,
           bedrock_client P = Some c
           /\ invoke_model c (invoke_model_call P request) = Return raw
           /\ json_loads P raw = inr response_body
           /\ text_field response_body = Some v
           /\ pydantic_str P v = Return t
           /\ (forall s, v = JStr s -> t = s).
Proof.
  intros P request.
  assert (Hrun : run_inference P request
                 = (mkInferenceResponse true (Some "Hello!")
                      (Some [mkChatMessage "user" "Hi";
                             mkChatMessage "assistant" "Hello!"])
                      None,
                    [invoke_model_call P request]))
    by (vm_compute; reflexivity).
  split; [exact Hrun|].
  exact (run_inference_round_trip P request _ _
           (fun s => eq_refl) Hrun eq_refl).
Defined.



Lemma unrecognised_role_dropped_from_payload_witness :
  let P := Stubs.backend (Return "raw")
             [("raw", Stubs.completion (JStr "Hello!"))] in
  let note := mkChatMessage "system" "Be brief." in
  let request := mkInferenceRequest "Hi" [note] in
  bedrock_messages (messages request)
  = [backend_turn (mkChatMessage "user" "Hi")]
  /\ updatedHistory (fst (run_inference P request))
     = Some [note; mkChatMessage "user" "Hi";
             mkChatMessage "assistant" "Hello!"]
  /\ ~ (backend_turn note ∈ bedrock_messages (messages request)).
Proof.
  intros P note request.
  split; [reflexivity|]. split; [vm_compute; reflexivity|].
  refine (proj1 (proj2 (proj2
    (unrecognised_role_dropped_from_payload P request 0 note
       (fst (run_inference P request)) (snd (run_inference P request))
       eq_refl _ _ _)))).
  - discriminate.
  - discriminate.
  - now destruct (run_inference P request).
Defined.

Lemma unavailable_backend_degrades_witness :
  let request := mkInferenceRequest "Hi" [] in
  bedrock_client Stubs.no_backend = None
  /\ run_inference Stubs.no_backend request
     = (mkInferenceResponse false None None
          (Some "Bedrock client not available."), []).
Proof.
  intros request.
  exact (unavailable_backend_degrades Stubs.no_backend request
           (Exception_ "You must specify a region.") eq_refl).
Defined.


(** C5 on a body whose first content element is no object: the check
    stops on the call of [get], and the error reported is the
    interpreter's, not the generic one. *)
Theorem first_element_not_object_reports_attribute_error :
  let response_body := Stubs.body_with (JStr "Hello!") in
  let P := Stubs.backend (Return "raw") [("raw", response_body)] in
  let request := mkInferenceRequest "Hi" [] in
  text_field response_body = None
  /\ invalid_structure response_body
     = Raise (AttributeError "'str' object has no attribute 'get'")
  /\ fst (run_inference P request)
     = mkInferenceResponse false None None
         (Some "'str' object has no attribute 'get'")
  /\ fst (run_inference P request)
     <> mkInferenceResponse false None None
          (Some "No valid response content from the model").
Proof.
  intros response_body P request.
  assert (Hrun : fst (run_inference P request)
                 = mkInferenceResponse false None None
                     (Some "'str' object has no attribute 'get'"))
    by (vm_compute; reflexivity).
  split; [reflexivity|]. split; [vm_compute; reflexivity|].
  split; [exact Hrun|]. rewrite Hrun. discriminate.
Qed.

End ApiFacts.

(* ===================================================================== *)
(** * The Edge Relay: properties                                          *)
(* ===================================================================== *)

Module RelayFacts.
Import Py PyFacts Relay.

Section Status.



End Status.

Section Handler.

Variable P : Platform.

(** The two [except] clauses. *)
Lemma lambda_handler_transport (event : json) (http_error : string) :
  try_relay P event = Raise (RequestException http_error) ->
  lambda_handler P event
  = failure_response P 502
      ("Failed to connect to inference service: " +:+ http_error).
Proof. unfold lambda_handler. now intros ->. Qed.

Lemma lambda_handler_other (event : json) (e : exn) :
  try_relay P event = Raise e ->
  (forall http_error, e <> RequestException http_error) ->
  lambda_handler P event = failure_response P 500 (str_exn e).
Proof.
  unfold lambda_handler. intros -> Hclass.
  destruct e; try reflexivity. now destruct (Hclass msg).
Qed.

(** Where the [try] stands once the endpoint is known to be set. *)
Lemma try_relay_configured (event : json) (endpoint : string) :
  configured P endpoint ->
  try_relay P event
  = bind (log_authenticated_user event) (fun _ =>
    bind (build_api_payload P event) (fun api_payload =>
    bind (call_inference_api P endpoint api_payload) (read_api_response P))).
Proof.
  intros [Hset Hne]. unfold try_relay. rewrite Hset.
  apply String.eqb_neq in Hne. now rewrite Hne.
Qed.



(** Splits the chains of [bind]s that raise on the step that raised. *)
Ltac raising_steps :=
  repeat match goal with
    | H : bind ?c _ = Raise _ |- _ =>
        let E := fresh "Hraise" in destruct c eqn:E; cbn [bind] in H
    | H : (if ?b then _ else _) = Raise _ |- _ => destruct b
    | H : Return _ = Raise _ |- _ => discriminate H
    | H : Raise ?e1 = Raise ?e2 |- _ =>
        first [is_var e1 | is_var e2]; injection H as <-
    end.

(** Nothing before the POST raises an exception of requests. *)
Lemma log_authenticated_user_builtin (event : json) (e : exn) :
  log_authenticated_user event = Raise e -> builtin_exn e.
Proof.
  unfold log_authenticated_user. intros H.
  raising_steps; eauto with py_raise.
Qed.

Lemma build_api_payload_builtin (event : json) (e : exn) :
  build_api_payload P event = Raise e -> builtin_exn e.
Proof.
  unfold build_api_payload. intros H.
  raising_steps; eauto with py_raise.
Qed.




(** C8: the 200, the 502 and the 500 response all carry the cross-origin
    headers: any origin, and the methods OPTIONS and POST. *)
Theorem cors_headers_on_every_response (event : json) :
  headers (lambda_handler P event) = cors_headers
  /\ headers (lambda_handler P event) !! "Access-Control-Allow-Origin"
     = Some "*"
  /\ headers (lambda_handler P event) !! "Access-Control-Allow-Methods"
     = Some "OPTIONS,POST".
Proof.
  unfold lambda_handler.
  destruct (try_relay P event) as [[assistant_response updated_history]|[]];
    repeat split; reflexivity.
Qed.

(** C10: an event whose [requestContext] holds an [authorizer] object
    without a [claims] key is answered with status 500: the claims are
    read by subscript inside the [try], for a log line. *)
Theorem authorizer_without_claims_is_500 (event : json)
        (ev rc au : gmap string json) :
  event = JDict ev ->
  ev !! "requestContext" = Some (JDict rc) ->
  rc !! "authorizer" = Some (JDict au) ->
  au !! "claims" = None ->
  log_authenticated_user event = Raise (KeyError "'claims'")
  /\ statusCode (lambda_handler P event) = 500
  /\ (forall endpoint,
        configured P endpoint ->
        lambda_handler P event
        = mkLambdaResponse 500 cors_headers
            (json_dumps P
               (JDict {[ "success" := JBool false;
                         "error" := JStr "'claims'" ]}))).
Proof.
  intros -> Hrc Hau Hclaims.
  assert (Hlog : log_authenticated_user (JDict ev) = Raise (KeyError "'claims'")).
  { unfold log_authenticated_user. cbn [contains bind getitem].
    rewrite Hrc. rewrite bool_decide_true by eauto.
    cbn [contains bind getitem]. rewrite Hau.
    rewrite bool_decide_true by eauto.
    cbn [bind getitem]. now rewrite Hclaims. }
  split; [exact Hlog|].
  assert (Hconf : forall endpoint,
             configured P endpoint ->
             lambda_handler P (JDict ev) = failure_response P 500 "'claims'").
  { intros endpoint Hconf.
    apply (lambda_handler_other (JDict ev) (KeyError "'claims'")); [|discriminate].
    now rewrite (try_relay_configured _ endpoint Hconf), Hlog. }
  split; [|exact Hconf].
  destruct (INFERENCE_API_ENDPOINT P) as [endpoint|] eqn:Hset.
  - destruct (String.eqb endpoint EmptyString) eqn:Hne.
    + unfold lambda_handler, try_relay. now rewrite Hset, Hne.
    + apply String.eqb_neq in Hne.
      now rewrite (Hconf endpoint (conj Hset Hne)).
  - unfold lambda_handler, try_relay. now rewrite Hset.
Qed.

End Handler.



Lemma authorizer_without_claims_is_500_witness :
  let P := Stubs.service (Some "http://inference.internal/infer")
             (Raise (RequestException "Connection refused")) [] in
  let authorizer := {[ "principalId" := JStr "user" ]} in
  let request_context := {[ "authorizer" := JDict authorizer ]} in
  let ev := {[ "requestContext" := JDict request_context;
               "body" := JStr "{}" ]} in
  statusCode (lambda_handler P (JDict ev)) = 500.
Proof.
  intros P authorizer request_context ev.
  exact (proj1 (proj2
    (authorizer_without_claims_is_500 P (JDict ev) ev request_context
       authorizer eq_refl eq_refl eq_refl eq_refl))).
Defined.

End RelayFacts.

(* ===================================================================== *)
(** * The Inference Service: the rest of the module                       *)
(* ===================================================================== *)

Module ApiMore.
Import Py PyFacts Api ApiFacts.

Section Region.

Lemma append_cons (c : ascii) (s t : string) :
  String c s +:+ t = String c (s +:+ t).
Proof. reflexivity. Qed.

Lemma strip_prefix_append (p s : string) : strip_prefix p (p +:+ s) = Some s.
Proof.
  induction p as [|a p IH]; [reflexivity|].
  rewrite append_cons. cbn [strip_prefix]. now rewrite Ascii.eqb_refl.
Qed.

Lemma strip_prefix_Some (p s rest : string) :
  strip_prefix p s = Some rest -> s = p +:+ rest.
Proof.
  revert s. induction p as [|a p IH]; intros s H.
  - now injection H as ->.
  - destruct s as [|b s]; [discriminate H|]. cbn [strip_prefix] in H.
    destruct (Ascii.eqb a b) eqn:Hab; [|discriminate H].
    apply Ascii.eqb_eq in Hab as ->. rewrite append_cons.
    now rewrite <- (IH s H).
Qed.

Lemma before_colon_append (r rest : string) :
  colon_free r = true -> before_colon (r +:+ ":" +:+ rest) = Some r.
Proof.
  induction r as [|c r IH]; intros Hfree; [reflexivity|].
  cbn [colon_free] in Hfree. apply andb_true_iff in Hfree as [Hc Hr].
  apply negb_true_iff in Hc.
  rewrite append_cons. cbn [before_colon]. rewrite Hc.
  now rewrite (IH Hr).
Qed.

Lemma before_colon_Some (s r : string) :
  before_colon s = Some r ->
  colon_free r = true /\ exists rest, s = r +:+ ":" +:+ rest.
Proof.
  revert r. induction s as [|c s IH]; intros r H; [discriminate H|].
  cbn [before_colon] in H.
  destruct (Ascii.eqb c ":") eqn:Hc.
  - injection H as <-. apply Ascii.eqb_eq in Hc as ->.
    split; [reflexivity|]. now exists s.
  - destruct (before_colon s) as [r'|] eqn:Hs; [|discriminate H].
    injection H as <-. destruct (IH r' eq_refl) as [Hfree [rest ->]].
    split.
    + cbn [colon_free]. now rewrite Hc, Hfree.
    + now exists rest.
Qed.

(** What a match of the pattern at the start of a text is. *)
Lemma match_arn_here_Some (s r : string) :
  match_arn_here s = Some r ->
  r <> EmptyString /\ colon_free r = true
  /\ exists rest, s = "arn:aws:lambda:" +:+ r +:+ ":" +:+ rest.
Proof.
  unfold match_arn_here. intros H.
  destruct (strip_prefix "arn:aws:lambda:" s) as [tail|] eqn:Hp;
    [|discriminate H].
  destruct (before_colon tail) as [[|c group]|] eqn:Hg; try discriminate H.
  injection H as <-.
  apply strip_prefix_Some in Hp. apply before_colon_Some in Hg as [Hfree [rest ->]].
  split; [discriminate|]. split; [exact Hfree|]. now exists rest.
Qed.

Lemma match_arn_here_arn (region rest : string) :
  region <> EmptyString -> colon_free region = true ->
  match_arn_here ("arn:aws:lambda:" +:+ region +:+ ":" +:+ rest) = Some region.
Proof.
  intros Hne Hfree. unfold match_arn_here.
  rewrite strip_prefix_append, (before_colon_append _ _ Hfree).
  destruct region; [now destruct Hne|reflexivity].
Qed.

(** What a match found by the search is. *)
Lemma search_arn_Some (arn r : string) :
  search_arn arn = Some r ->
  r <> EmptyString /\ colon_free r = true
  /\ exists pre post, arn = pre +:+ "arn:aws:lambda:" +:+ r +:+ ":" +:+ post.
Proof.
  induction arn as [|c arn IH]; cbn [search_arn]; intros H.
  - destruct (match_arn_here EmptyString) eqn:Hm; [discriminate Hm|discriminate H].
  - destruct (match_arn_here (String c arn)) as [g|] eqn:Hm.
    + injection H as ->.
      destruct (match_arn_here_Some _ _ Hm) as (Hne & Hfree & rest & Hs).
      split; [exact Hne|]. split; [exact Hfree|].
      exists EmptyString, rest. exact Hs.
    + destruct (IH H) as (Hne & Hfree & pre & post & ->).
      split; [exact Hne|]. split; [exact Hfree|].
      now exists (String c pre), post.
Qed.

Variable P : Platform.

(** An ARN of a Lambda function yields the region it names, whatever the
    environment says: the text between ["arn:aws:lambda:"] and the next
    colon. *)
Theorem extract_region_of_lambda_arn (region rest : string) :
  region <> EmptyString ->
  colon_free region = true ->
  extract_region_from_arn P ("arn:aws:lambda:" +:+ region +:+ ":" +:+ rest)
  = region.
Proof.
  intros Hne Hfree. unfold extract_region_from_arn.
  destruct region as [|c region]; [now destruct Hne|].
  pose proof (match_arn_here_arn (String c region) rest Hne Hfree) as Hm.
  change ("arn:aws:lambda:" +:+ String c region +:+ ":" +:+ rest)
    with (String "a" ("rn:aws:lambda:" +:+ String c region +:+ ":" +:+ rest))
    in Hm |- *.
  cbn [search_arn]. now rewrite Hm.
Qed.


(** A text in which ["arn:aws:lambda:"] does not occur yields the region of
    the environment: [AWS_REGION], or ["us-east-1"] when it is unset. *)
Theorem extract_region_fallback (arn : string) :
  (forall pre post, arn <> pre +:+ "arn:aws:lambda:" +:+ post) ->
  extract_region_from_arn P arn
  = default "us-east-1" (environ P !! "AWS_REGION").
Proof.
  intros Hnone. unfold extract_region_from_arn.
  destruct (search_arn arn) as [r|] eqn:Hs; [|reflexivity].
  destruct (search_arn_Some arn r Hs) as (_ & _ & pre & post & Harn).
  now destruct (Hnone pre (r +:+ ":" +:+ post)).
Qed.

End Region.

Lemma extract_region_of_lambda_arn_witness :
  extract_region_from_arn (Stubs.backend (Return "raw") [])
    ("arn:aws:lambda:" +:+ "ap-northeast-1" +:+ ":"
     +:+ "123456789012:function:chat")
  = "ap-northeast-1".
Proof.
  refine (extract_region_of_lambda_arn _ "ap-northeast-1"
            "123456789012:function:chat" _ eq_refl).
  discriminate.
Defined.

Lemma extract_region_fallback_witness :
  extract_region_from_arn (Stubs.backend (Return "raw") []) "test"
  = "us-east-1".
Proof.
  refine (extract_region_fallback (Stubs.backend (Return "raw") []) "test" _).
  intros pre post H.
  do 4 (destruct pre as [|? pre]; [discriminate H|injection H as _ H]).
  destruct pre; discriminate H.
Defined.

Section Handler.

Variable P : Platform.



(** What [run_inference] makes of what the [try] does. *)
Lemma run_inference_of_try (c : client) (request : InferenceRequest) :
  bedrock_client P = Some c ->
  run_inference P request
  = (match fst (try_inference P c request) with
     | Return r => r
     | Raise (ClientError msg) => error_response ("Bedrock API error: " +:+ msg)
     | Raise e => error_response (str_exn e)
     end,
     [invoke_model_call P request]).
Proof.
  intros Hc. unfold run_inference. rewrite Hc.
  pose proof (try_inference_calls P c request) as Hcalls.
  destruct (try_inference P c request) as [[r|e] calls].
  - cbn [fst snd] in *. now subst calls.
  - cbn [fst snd] in *. subst calls. now destruct e.
Qed.








(** What a success of [run_inference] is. *)
Lemma run_inference_success (request : InferenceRequest)
      (r : InferenceResponse) (calls : list invocation) :
  run_inference P request = (r, calls) ->
  success r = true ->
  exists t,
    r = mkInferenceResponse true (Some t)
          (Some (messages request ++ [mkChatMessage "assistant" t])) None.
Proof.
  intros Hrun Hok. destruct (bedrock_client P) as [c|] eqn:Hc.
  2:{ unfold run_inference in Hrun. rewrite Hc in Hrun.
      injection Hrun as <- <-. discriminate Hok. }
  rewrite (run_inference_of_try c request Hc) in Hrun.
  destruct (fst (try_inference P c request)) as [r0|e] eqn:Htry.
  - injection Hrun as -> _.
    destruct (try_inference_return P c request r Htry)
      as (raw & response_body & v & t & _ & _ & _ & _ & _ & ->).
    now exists t.
  - destruct e; injection Hrun as <- _; discriminate Hok.
Qed.

(** The translated list is the translation of the history followed by the
    new message as a user turn: the new message is always sent, last, and
    no more entries are sent than the history has messages, plus one. *)
Theorem payload_ends_with_new_message (request : InferenceRequest) :
  bedrock_messages (messages request)
  = bedrock_messages (conversationHistory request)
    ++ [backend_turn (mkChatMessage "user" (message request))]
  /\ (length (bedrock_messages (messages request))
      <= S (length (conversationHistory request)))%nat.
Proof.
  assert (Happ : bedrock_messages (messages request)
                 = bedrock_messages (conversationHistory request)
                   ++ [backend_turn (mkChatMessage "user" (message request))]).
  { unfold messages. now rewrite bedrock_messages_app. }
  split; [exact Happ|].
  rewrite Happ, length_app, bedrock_messages_filter, length_fmap.
  pose proof (length_filter (fun m => recognised m = true)
                            (conversationHistory request)) as Hle.
  cbn [length]. lia.
Qed.

(** A history of user and assistant turns only is translated whole: one
    entry for each message, in order, then the new message. *)
Theorem recognised_history_translated_whole (request : InferenceRequest) :
  Forall (fun m => role m = "user" \/ role m = "assistant")
         (conversationHistory request) ->
  bedrock_messages (messages request) = backend_turn <$> messages request.
Proof.
  intros Hall. unfold messages. rewrite bedrock_messages_app, fmap_app.
  f_equal. rewrite bedrock_messages_filter. f_equal.
  induction Hall as [|m rest Hm _ IH]; [reflexivity|].
  rewrite filter_cons_True; [now rewrite IH|].
  unfold recognised. destruct Hm as [-> | ->]; reflexivity.
Qed.

(** Two calls in a row, the second on the history the first returned: when
    both succeed, the second history is the first request's history
    followed by the four turns of the two exchanges, in order, and the
    second payload carries the first exchange. *)
Theorem conversation_continues (request : InferenceRequest)
        (r1 r2 : InferenceResponse) (calls1 calls2 : list invocation)
        (h1 : list ChatMessage) (next : string) :
  run_inference P request = (r1, calls1) ->
  success r1 = true ->
  updatedHistory r1 = Some h1 ->
  run_inference P (mkInferenceRequest next h1) = (r2, calls2) ->
  success r2 = true ->
  exists t1 t2,
    response r1 = Some t1
    /\ response r2 = Some t2
    /\ updatedHistory r2
       = Some (conversationHistory request
               ++ [mkChatMessage "user" (message request);
                   mkChatMessage "assistant" t1;
                   mkChatMessage "user" next;
                   mkChatMessage "assistant" t2])
    /\ bedrock_messages (messages (mkInferenceRequest next h1))
       = bedrock_messages (conversationHistory request)
         ++ [backend_turn (mkChatMessage "user" (message request));
             backend_turn (mkChatMessage "assistant" t1);
             backend_turn (mkChatMessage "user" next)].
Proof.
  intros Hrun1 Hok1 Hh1 Hrun2 Hok2.
  destruct (run_inference_success request r1 calls1 Hrun1 Hok1) as [t1 ->].
  destruct (run_inference_success _ r2 calls2 Hrun2 Hok2) as [t2 ->].
  cbn [updatedHistory] in Hh1. injection Hh1 as <-.
  exists t1, t2. cbn [response updatedHistory].
  split; [reflexivity|]. split; [reflexivity|].
  unfold messages. cbn [conversationHistory message].
  split.
  - f_equal. rewrite <- !app_assoc. reflexivity.
  - rewrite !bedrock_messages_app, <- !app_assoc. reflexivity.
Qed.

End Handler.






Lemma recognised_history_translated_whole_witness :
  let request :=
    mkInferenceRequest "And then?"
      [mkChatMessage "user" "Hi"; mkChatMessage "assistant" "Hello!"] in
  bedrock_messages (messages request) = backend_turn <$> messages request.
Proof.
  intros request.
  refine (recognised_history_translated_whole request _).
  constructor; [left; reflexivity|].
  constructor; [right; reflexivity|]. constructor.
Defined.

Lemma conversation_continues_witness :
  let P := Stubs.backend (Return "raw")
             [("raw", Stubs.completion (JStr "Hello!"))] in
  let h1 := [mkChatMessage "user" "Hi"; mkChatMessage "assistant" "Hello!"] in
  exists t1 t2,
    Some "Hello!" = Some t1
    /\ Some "Hello!" = Some t2
    /\ Some (h1 ++ [mkChatMessage "user" "Again";
                    mkChatMessage "assistant" "Hello!"])
       = Some ([] ++ [mkChatMessage "user" "Hi";
                      mkChatMessage "assistant" t1;
                      mkChatMessage "user" "Again";
                      mkChatMessage "assistant" t2])
    /\ bedrock_messages (messages (mkInferenceRequest "Again" h1))
       = bedrock_messages []
         ++ [backend_turn (mkChatMessage "user" "Hi");
             backend_turn (mkChatMessage "assistant" t1);
             backend_turn (mkChatMessage "user" "Again")].
Proof.
  intros P h1.
  refine (conversation_continues P (mkInferenceRequest "Hi" [])
            (mkInferenceResponse true (Some "Hello!") (Some h1) None)
            (mkInferenceResponse true (Some "Hello!")
               (Some (h1 ++ [mkChatMessage "user" "Again";
                             mkChatMessage "assistant" "Hello!"])) None)
            [invoke_model_call P (mkInferenceRequest "Hi" [])]
            [invoke_model_call P (mkInferenceRequest "Again" h1)]
            h1 "Again" _ eq_refl eq_refl _ eq_refl);
    vm_compute; reflexivity.
Defined.

End ApiMore.

(* ===================================================================== *)
(** * The Edge Relay: the rest of the handler                             *)
(* ===================================================================== *)

Module RelayMore.
Import Py PyFacts Relay RelayFacts.

(** Splits the chains of [bind]s among the hypotheses on the step that
    raised. *)
Ltac raised :=
  repeat match goal with
    | H : bind ?c _ = Raise _ |- _ =>
        let E := fresh "Hraised" in destruct c eqn:E; cbn [bind] in H
    | H : (if ?b then _ else _) = Raise _ |- _ => destruct b
    | H : Return _ = Raise _ |- _ => discriminate H
    | H : Raise ?e1 = Raise ?e2 |- _ =>
        first [is_var e1 | is_var e2]; injection H as <-
    end.

Section Handler.

Variable P : Platform.

(** Reading the answer raises nothing of requests. *)
Lemma read_api_response_builtin (api_response : json) (e : exn) :
  read_api_response P api_response = Raise e -> builtin_exn e.
Proof.
  unfold read_api_response. intros H.
  raised; eauto with py_raise; exact I.
Qed.

(** What an answer is read as. *)
Lemma read_api_response_Return (api_response a h : json) :
  read_api_response P api_response = Return (a, h) ->
  exists api,
    api_response = JDict api
    /\ truthy (default JNull (api !! "success")) = true
    /\ a = default JNull (api !! "response")
    /\ h = default JNull (api !! "conversationHistory")
    /\ a <> JNull /\ h <> JNull.
Proof.
  unfold read_api_response. intros H.
  destruct api_response as [| | | | | |api]; try discriminate H.
  cbn [get get_default bind] in H.
  destruct (truthy (default JNull (api !! "success"))) eqn:Hs;
    [|discriminate H].
  cbn [negb] in H.
  destruct (is_none (default JNull (api !! "response"))
            || is_none (default JNull (api !! "conversationHistory"))) eqn:Hn;
    [discriminate H|].
  injection H as <- <-. apply orb_false_elim in Hn as [Ha Hh].
  exists api. repeat split; auto.
  - intros Heq. rewrite Heq in Ha. discriminate Ha.
  - intros Heq. rewrite Heq in Hh. discriminate Hh.
Qed.


(** What a [try] that got to its end went through. *)
Lemma try_relay_Return (event a h : json) :
  try_relay P event = Return (a, h) ->
  exists api, answered P event api
              /\ read_api_response P (JDict api) = Return (a, h).
Proof.
  unfold try_relay. intros H.
  destruct (INFERENCE_API_ENDPOINT P) as [endpoint|] eqn:Hset;
    [|discriminate H].
  destruct (String.eqb endpoint EmptyString) eqn:Hne; [discriminate H|].
  cbn [negb] in H. apply String.eqb_neq in Hne.
  destruct (log_authenticated_user event) as [[]|e] eqn:Hlog;
    [|discriminate H].
  cbn [bind] in H.
  destruct (build_api_payload P event) as [api_payload|e] eqn:Hbuild;
    [|discriminate H].
  cbn [bind] in H. unfold call_inference_api in H.
  destruct (requests_post P endpoint api_payload) as [r|e] eqn:Hpost;
    [|discriminate H].
  cbn [bind] in H.
  destruct (raise_for_status r) as [[]|e] eqn:Hstatus; [|discriminate H].
  cbn [bind] in H.
  destruct (json_ r) as [api_response|e] eqn:Hjson; [|discriminate H].
  cbn [bind] in H.
  destruct (read_api_response_Return _ _ _ H) as (api & -> & _).
  exists api. split; [|exact H].
  exists endpoint, api_payload, r. repeat split; auto.
Qed.

(** What a [try] that raised an exception of requests went through. *)
Lemma try_relay_transport (event : json) (http_error : string) :
  try_relay P event = Raise (RequestException http_error) ->
  exists endpoint api_payload,
    configured P endpoint
    /\ log_authenticated_user event = Return tt
    /\ build_api_payload P event = Return api_payload
    /\ call_inference_api P endpoint api_payload
       = Raise (RequestException http_error).
Proof.
  unfold try_relay. intros H.
  destruct (INFERENCE_API_ENDPOINT P) as [endpoint|] eqn:Hset;
    [|discriminate H].
  destruct (String.eqb endpoint EmptyString) eqn:Hne; [discriminate H|].
  cbn [negb] in H. apply String.eqb_neq in Hne.
  destruct (log_authenticated_user event) as [[]|e] eqn:Hlog.
  2:{ injection H as ->. now apply log_authenticated_user_builtin in Hlog. }
  cbn [bind] in H.
  destruct (build_api_payload P event) as [api_payload|e] eqn:Hbuild.
  2:{ injection H as ->. now apply build_api_payload_builtin in Hbuild. }
  cbn [bind] in H.
  destruct (call_inference_api P endpoint api_payload) as [api_response|e]
    eqn:Hcall.
  - cbn [bind] in H. now apply read_api_response_builtin in H.
  - injection H as ->. exists endpoint, api_payload. repeat split; auto.
Qed.


(** Status 200 is returned only then: the POST was made and answered by
    an object with a truthy [success] and with a [response] and a
    [conversationHistory] that are not [null]. *)
Theorem ok_only_when_answered (event : json) :
  statusCode (lambda_handler P event) = 200 ->
  exists api,
    answered P event api
    /\ truthy (default JNull (api !! "success")) = true
    /\ default JNull (api !! "response") <> JNull
    /\ default JNull (api !! "conversationHistory") <> JNull.
Proof.
  unfold lambda_handler. intros Hok.
  destruct (try_relay P event) as [[a h]|e] eqn:Htry.
  - destruct (try_relay_Return event a h Htry) as (api & Hans & Hread).
    destruct (read_api_response_Return _ _ _ Hread)
      as (api' & [= <-] & Hs & -> & -> & Ha & Hh).
    now exists api.
  - destruct e; discriminate Hok.
Qed.

(** Status 502 is returned only when the POST was made: the endpoint is
    set, the payload was built, and the exception came from
    [requests.post], [raise_for_status] or [response.json()]. *)
Theorem bad_gateway_only_after_post (event : json) :
  statusCode (lambda_handler P event) = 502 ->
  exists endpoint api_payload http_error,
    configured P endpoint
    /\ log_authenticated_user event = Return tt
    /\ build_api_payload P event = Return api_payload
    /\ call_inference_api P endpoint api_payload
       = Raise (RequestException http_error)
    /\ lambda_handler P event
       = failure_response P 502
           ("Failed to connect to inference service: " +:+ http_error).
Proof.
  intros Hstatus.
  destruct (try_relay P event) as [[a h]|e] eqn:Htry.
  - unfold lambda_handler in Hstatus. rewrite Htry in Hstatus.
    discriminate Hstatus.
  - destruct e as [| http_error | | | | | |];
      try (unfold lambda_handler in Hstatus; rewrite Htry in Hstatus;
           discriminate Hstatus).
    destruct (try_relay_transport event http_error Htry)
      as (endpoint & api_payload & Hconf & Hlog & Hbuild & Hcall).
    exists endpoint, api_payload, http_error.
    split; [exact Hconf|]. split; [exact Hlog|]. split; [exact Hbuild|].
    split; [exact Hcall|]. now apply lambda_handler_transport.
Qed.

(** Every response that is not a 200 has the error body: [success] false
    and a text under [error], and nothing else. *)
Theorem error_responses_have_error_body (event : json) :
  statusCode (lambda_handler P event) <> 200 ->
  exists msg,
    lambda_handler P event
    = failure_response P (statusCode (lambda_handler P event)) msg.
Proof.
  unfold lambda_handler. intros Hstatus.
  destruct (try_relay P event) as [[a h]|e] eqn:Htry.
  - now destruct Hstatus.
  - destruct e; eexists; reflexivity.
Qed.



(** Without an endpoint, or when the payload cannot be built, the response
    is the same whatever [requests.post] would do: no POST is made. *)
Theorem no_post_without_payload (event : json)
        (post : string -> json -> result Response) :
  (INFERENCE_API_ENDPOINT P = None
   \/ INFERENCE_API_ENDPOINT P = Some EmptyString
   \/ exists e, bind (log_authenticated_user event)
                     (fun _ => build_api_payload P event) = Raise e) ->
  lambda_handler (with_post P post) event = lambda_handler P event.
Proof.
  intros H. unfold lambda_handler.
  assert (Htry : try_relay (with_post P post) event = try_relay P event).
  { unfold try_relay.
    change (INFERENCE_API_ENDPOINT (with_post P post))
      with (INFERENCE_API_ENDPOINT P).
    change (build_api_payload (with_post P post) event)
      with (build_api_payload P event).
    destruct H as [-> | [-> | [e He]]]; try reflexivity.
    destruct (INFERENCE_API_ENDPOINT P) as [endpoint|]; [|reflexivity].
    destruct (negb (String.eqb endpoint EmptyString)); [|reflexivity].
    destruct (log_authenticated_user event) as [[]|e0]; cbn [bind] in He |- *.
    - now rewrite He.
    - reflexivity. }
  now rewrite Htry.
Qed.


End Handler.


Lemma ok_only_when_answered_witness :
  let api : gmap string json :=
    {[ "success" := JBool true; "response" := JStr "Hello!";
       "conversationHistory" := JList [] ]} in
  let P := Stubs.service (Some "http://inference.internal/infer")
             (Return (mkResponse 200 "OK" "http://inference.internal/infer"
                                 (Return (JDict api))))
             [("{}", JDict {[ "message" := JStr "Hi" ]})] in
  exists api',
    answered P (Stubs.post_event "{}") api'
    /\ truthy (default JNull (api' !! "success")) = true
    /\ default JNull (api' !! "response") <> JNull
    /\ default JNull (api' !! "conversationHistory") <> JNull.
Proof.
  intros api P.
  exact (ok_only_when_answered P (Stubs.post_event "{}") eq_refl).
Defined.

Lemma bad_gateway_only_after_post_witness :
  let P := Stubs.service (Some "http://inference.internal/infer")
             (Return (mkResponse 503 "Service Unavailable"
                                 "http://inference.internal/infer"
                                 (Raise (ValueError "no body"))))
             [("{}", JDict {[ "message" := JStr "Hi" ]})] in
  exists endpoint api_payload http_error,
    configured P endpoint
    /\ log_authenticated_user (Stubs.post_event "{}") = Return tt
    /\ build_api_payload P (Stubs.post_event "{}") = Return api_payload
    /\ call_inference_api P endpoint api_payload
       = Raise (RequestException http_error)
    /\ lambda_handler P (Stubs.post_event "{}")
       = failure_response P 502
           ("Failed to connect to inference service: " +:+ http_error).
Proof.
  intros P.
  exact (bad_gateway_only_after_post P (Stubs.post_event "{}") eq_refl).
Defined.

Lemma error_responses_have_error_body_witness :
  let P := Stubs.service None (Raise (RequestException "unused")) [] in
  exists msg,
    lambda_handler P (Stubs.post_event "{}")
    = failure_response P (statusCode (lambda_handler P (Stubs.post_event "{}")))
                       msg.
Proof.
  intros P.
  refine (error_responses_have_error_body P (Stubs.post_event "{}") _).
  discriminate.
Defined.



Lemma no_post_without_payload_witness :
  let P := Stubs.service (Some "http://inference.internal/infer")
             (Raise (RequestException "Connection refused")) [] in
  lambda_handler
    (with_post P (fun _ _ => Raise (Exception_ "never called")))
    (Stubs.post_event "not json")
  = lambda_handler P (Stubs.post_event "not json").
Proof.
  intros P.
  refine (no_post_without_payload P (Stubs.post_event "not json") _ _).
  right. right. eexists. vm_compute. reflexivity.
Defined.


End RelayMore.

(* ===================================================================== *)
(** * The two handlers in a row                                           *)
(* ===================================================================== *)

Module EndToEnd.
Import Py PyFacts.

Section Chain.

Variable PA : Api.Platform.
Variable P : Relay.Platform.







End Chain.


End EndToEnd.
